(** * PyChamber: the angle-indexed measurement collection ([NetworkModel])

    A shallow embedding of [pychamber/network_model.py] and the properties
    of its queries ([freqs], [azimuths], [elevations], [mags]) and of
    [append].

    Angles, frequencies and dB values are IEEE binary64 numbers, as Python
    floats are: equality is [PrimFloat.eqb] (so [-0.0 == 0.0] and
    [nan != nan]).  The transcendental and parsing parts of the libraries
    the class builds on (numpy's [log10] and [abs], scikit-rf's lookup of a
    frequency label) are parameters of the development. *)

From Stdlib Require Import PrimFloat.
From stdpp Require Import gmap strings list fin_maps.

Open Scope float_scope.

(** ** Exceptions and results *)

Inductive exception : Type :=
  | IndexError        (* indexing a sequence out of range *)
  | KeyError          (* a lookup that finds nothing *)
  | ValueError        (* an argument the callee refuses *)
  | StaleReference.   (* a reference the store does not hold; never raised
                         by Python, only by an ill-formed store *)

Inductive result (A : Type) : Type :=
  | Ok (a : A)
  | Raise (e : exception).
Arguments Ok {A} a.
Arguments Raise {A} e.

#[global] Instance result_ret : MRet result := fun A a => Ok a.

#[global] Instance result_bind : MBind result := fun A B k m =>
  match m with
  | Ok a => k a
  | Raise e => Raise e
  end.

(** A list comprehension whose body can raise: the first exception, in
    iteration order, ends it. *)
Fixpoint comprehension {A B} (body : A -> result B) (xs : list A)
  : result (list B) :=
  match xs with
  | [] => Ok []
  | x :: xs' =>
      y ← body x;
      ys ← comprehension body xs';
      mret (y :: ys)
  end.

(** ** numpy arrays

    An array is read by its nesting, the way [ndarray.tolist()] shows it:
    a one-dimensional array of [k] numbers is [Array [Scalar x1; ...]], a
    [k]-by-1 column is [Array [Array [Scalar x1]; ...]].  An array with no
    entry is [Array []] whatever its shape. *)

Unset Elimination Schemes.
Inductive ndarray : Type :=
  | Scalar (x : float)
  | Array (rows : list ndarray).
Set Elimination Schemes.

(** [np.array(xs)] for a list of Python floats. *)
Definition np_array_floats (xs : list float) : ndarray :=
  Array (map Scalar xs).

(** [np.array(rows)] for a list of arrays: one more level of nesting. *)
Definition np_array (rows : list ndarray) : ndarray := Array rows.

(** The entries of an array in row-major order ([ndarray.ravel()]). *)
Fixpoint ravel (a : ndarray) : list float :=
  match a with
  | Scalar x => [x]
  | Array rows => flat_map ravel rows
  end.

(** A column holding the given numbers, one per row. *)
Definition column (xs : list float) : ndarray :=
  Array (map (fun x => Array [Scalar x]) xs).

(** The F-by-1-by-1 array in which scikit-rf keeps a quantity of a
    one-port record, one entry per frequency point. *)
Definition one_port (xs : list float) : ndarray :=
  Array (map (fun x => Array [Array [Scalar x]]) xs).

(** [a.reshape(-1, 1)]. *)
Definition reshape_m1_1 (a : ndarray) : ndarray := column (ravel a).

(** [len(a)]: the extent of the first axis. *)
Definition np_len (a : ndarray) : nat :=
  match a with
  | Scalar _ => 0
  | Array rows => length rows
  end.

(** A one-dimensional array: every entry is a number. *)
Definition is_scalar (a : ndarray) : bool :=
  match a with Scalar _ => true | Array _ => false end.

Definition is_1d (a : ndarray) : bool :=
  match a with
  | Scalar _ => false
  | Array rows => forallb is_scalar rows
  end.

(** ** Measurement records

    Modelled from the spec: scikit-rf's [Network] is not part of the
    repository.  A record is one sweep at one pose: the frequency grid
    ([frequency.f]), the complex response parallel to it ([s], real and
    imaginary part; a one-port record, so scikit-rf's F-by-1-by-1 array
    is given by its F entries), and the two entries of its [params]
    dictionary. *)

Definition complex : Type := float * float.

Record Network : Type := mkNetwork {
  frequency_f : list float;
  s : list complex;
  param_azimuth : float;     (* params['azimuth'] *)
  param_elevation : float    (* params['elevation'] *)
}.

(** The response is parallel to the grid. *)
Definition parallel (n : Network) : Prop :=
  length (s n) = length (frequency_f n).

(** ** Truthiness, as Python's [if x:] tests it *)

Definition truthy_float (x : float) : bool := negb (x =? 0).

Definition truthy_str (x : string) : bool :=
  match x with
  | EmptyString => false
  | String _ _ => true
  end.

(** ** Selection ([NetworkSet.sel])

    Modelled from the spec: [sel] belongs to scikit-rf's [NetworkSet], the
    base class, which is not part of the repository.  A record matches a
    partial key iff every key present in it equals the record's field
    exactly; the empty key matches every record.  The result keeps the
    stored order.  A partial key maps a subset of azimuth and elevation,
    the two keys the class ever uses, so only these are looked up. *)

Definition key_matches (required : option float) (field : float) : bool :=
  match required with
  | None => true
  | Some v => field =? v
  end.

Definition matches (indexers : gmap string float) (n : Network) : bool :=
  key_matches (indexers !! "azimuth") (param_azimuth n)
  && key_matches (indexers !! "elevation") (param_elevation n).

Definition sel (indexers : gmap string float) (ntwk_set : list Network)
  : list Network :=
  List.filter (matches indexers) ntwk_set.

(** [seq[0]] on a Python sequence. *)
Definition item0 {A} (xs : list A) : result A :=
  match xs with
  | [] => Raise IndexError
  | x :: _ => Ok x
  end.

(** ** The queries of [NetworkModel]

    A query only reads the records the collection holds, so it is a
    function of that sequence, [self]. *)

Definition freqs (self : list Network) : ndarray :=
  match self with
  | [] => np_array_floats []                       (* len(self) == 0 *)
  | n0 :: _ => np_array_floats (frequency_f n0)    (* self[0].frequency.f *)
  end.

Definition azimuths (self : list Network) : ndarray :=
  if (length self =? 0)%nat then np_array_floats []
  else
    reshape_m1_1
      (np_array_floats
         (map param_azimuth (sel {["elevation" := 0]} self))).

Definition elevations (self : list Network) : ndarray :=
  if (length self =? 0)%nat then np_array_floats []
  else
    reshape_m1_1
      (np_array_floats
         (map param_elevation (sel {["azimuth" := 0]} self))).

(** ** [mags]

    numpy's [log10] and [abs] and scikit-rf's [Network.__getitem__] on a
    frequency label (the label is parsed and looked up in the record's
    grid; the outcome is the record cut down to the selected points, or an
    exception) are the parameters. *)

Section Mags.

Variable np_log10 : float -> float.
Variable np_abs : complex -> float.
Variable getitem : Network -> string -> result Network.

(** dB magnitude of one complex value: [20*log10(|z|)]. *)
Definition mag_db (z : complex) : float := 20 * np_log10 (np_abs z).

(** [Network.s_db].

    Modelled from the spec: the property is scikit-rf's.  It is the dB
    magnitude, [20*log10(|value|)], at every point of the response, in the
    shape of the response. *)
Definition s_db (n : Network) : ndarray :=
  one_port (map mag_db (s n)).

(** [params = dict()] followed by the two guarded assignments. *)
Definition mags_params (azimuth elevation : option float)
  : gmap string float :=
  let params : gmap string float := ∅ in
  let params :=
    match azimuth with
    | Some a => if truthy_float a then <["azimuth" := a]> params else params
    | None => params
    end in
  let params :=
    match elevation with
    | Some e => if truthy_float e then <["elevation" := e]> params else params
    | None => params
    end in
  params.

Definition mags (freq : option string) (azimuth elevation : option float)
    (self : list Network) : result ndarray :=
  if (length self =? 0)%nat then Ok (np_array_floats [])
  else
    let params := mags_params azimuth elevation in
    match freq with
    | Some label =>
        if truthy_str label then
          rows ← comprehension
                   (fun n => n' ← getitem n label; mret (s_db n'))
                   (sel params self);
          mret (np_array rows)
        else
          n0 ← item0 (sel params self);
          mret (reshape_m1_1 (s_db n0))
    | None =>
        n0 ← item0 (sel params self);
        mret (reshape_m1_1 (s_db n0))
    end.

End Mags.

(** ** [append], over a store of list objects

    [append] builds a list, mutates it and wraps it; whether the receiver
    is left alone depends on which list object is mutated.  A store maps
    references to the Python lists alive; a collection object is the
    reference held in its [ntwk_set] attribute, which no method of the
    class reassigns. *)

Definition loc : Type := positive.

Record NetworkModel : Type := mkNetworkModel { ntwk_set : loc }.

(** A computation over the store that can raise. *)
Definition M (A : Type) : Type :=
  gmap loc (list Network) -> result (A * gmap loc (list Network)).

#[global] Instance M_ret : MRet M := fun A a σ => Ok (a, σ).

#[global] Instance M_bind : MBind M := fun A B k m σ =>
  match m σ with
  | Ok (a, σ') => k a σ'
  | Raise e => Raise e
  end.

(** A new list object holding [xs]. *)
Definition new_list (xs : list Network) : M loc := fun σ =>
  let r := fresh (dom σ) in Ok (r, <[r := xs]> σ).

(** The items of the list behind [r]. *)
Definition read_list (r : loc) : M (list Network) := fun σ =>
  match σ !! r with
  | Some xs => Ok (xs, σ)
  | None => Raise StaleReference
  end.

(** [r.append(x)]: the list behind [r] grows in place. *)
Definition list_append (r : loc) (x : Network) : M unit := fun σ =>
  match σ !! r with
  | Some xs => Ok (tt, <[r := xs ++ [x]]> σ)
  | None => Raise StaleReference
  end.

(** [self.sel(indexers)]: a new collection over a new list of the records
    that match. *)
Definition NetworkSet_sel (self : NetworkModel)
    (indexers : gmap string float) : M NetworkModel :=
  xs ← read_list (ntwk_set self);
  r ← new_list (sel indexers xs);
  mret (mkNetworkModel r).

(** [list(it)]: a new list of the records [it] iterates over. *)
Definition list_of (it : NetworkModel) : M loc :=
  xs ← read_list (ntwk_set it);
  new_list xs.

(** [NetworkModel(temp)].

    Modelled from the spec: the constructor is inherited from scikit-rf's
    [NetworkSet].  The new collection keeps the list it is given; the
    records' frequency grids are not validated. *)
Definition NetworkModel_init (temp : loc) : M NetworkModel :=
  mret (mkNetworkModel temp).

Definition append (self : NetworkModel) (ntwk : Network) : M NetworkModel :=
  selected ← NetworkSet_sel self ∅;
  temp ← list_of selected;
  _ ← list_append temp ntwk;
  NetworkModel_init temp.

(** [len(c)] and the records of [c] in store [σ]. *)
Definition records (σ : gmap loc (list Network)) (c : NetworkModel)
  : option (list Network) :=
  σ !! ntwk_set c.

Definition len (σ : gmap loc (list Network)) (c : NetworkModel)
  : option nat :=
  length <$> records σ c.

(** [NetworkModel()]: a collection over a new, empty list. *)
Definition NetworkModel_empty : M NetworkModel :=
  r ← new_list [];
  NetworkModel_init r.

(** Two records taken at the same pose, as selection compares poses. *)
Definition same_pose (a b : Network) : bool :=
  (param_azimuth a =? param_azimuth b)
  && (param_elevation a =? param_elevation b).

(** ** Sample instances of the parameters, for the examples

    [log10] tabulated at the powers of ten the examples use, the modulus
    by its defining formula, and an exact-bin lookup that knows two
    labels. *)

Definition sample_log10 (x : float) : float :=
  if x =? 1 then 0 else if x =? 10 then 1 else if x =? 100 then 2 else nan.

Definition sample_abs (z : complex) : float :=
  PrimFloat.sqrt (fst z * fst z + snd z * snd z).

Definition label_hz (label : string) : option float :=
  if String.eqb label "1ghz" then Some 1e9
  else if String.eqb label "2ghz" then Some 2e9
  else None.

Fixpoint point_at (target : float) (fs : list float) (zs : list complex)
  : option (float * complex) :=
  match fs, zs with
  | f :: fs', z :: zs' =>
      if f =? target then Some (f, z) else point_at target fs' zs'
  | _, _ => None
  end.

Definition exact_bin (n : Network) (label : string) : result Network :=
  match label_hz label with
  | None => Raise ValueError
  | Some target =>
      match point_at target (frequency_f n) (s n) with
      | Some (f, z) =>
          Ok (mkNetwork [f] [z] (param_azimuth n) (param_elevation n))
      | None => Raise KeyError
      end
  end.

(** A record swept at 1 GHz alone. *)
Definition one_point : Network := mkNetwork [1e9] [(1, 0)] 0 0.

(** A sweep over 1 GHz and 2 GHz at the given pose. *)
Definition sweep (az el : float) : Network :=
  mkNetwork [1e9; 2e9] [(10, 0); (1, 0)] az el.

(** Elevations -10, 0, 10 crossed with azimuths -20, 0, 20. *)
Definition grid9 : list Network :=
  [ sweep (-20) (-10); sweep 0 (-10); sweep 20 (-10);
    sweep (-20) 0;     sweep 0 0;     sweep 20 0;
    sweep (-20) 10;    sweep 0 10;    sweep 20 10 ].

(** ** What the arguments of [mags] ask of a record

    An angle enters the filter when it is supplied and truthy; a record
    is admitted when its field equals every angle that entered. *)

Definition angle_given (angle : option float) : bool :=
  match angle with
  | Some a => truthy_float a
  | None => false
  end.

Definition angle_admits (angle : option float) (field : float) : bool :=
  match angle with
  | Some a => if truthy_float a then field =? a else true
  | None => true
  end.

Definition admitted (azimuth elevation : option float) (n : Network) : bool :=
  angle_admits azimuth (param_azimuth n)
  && angle_admits elevation (param_elevation n).

(** * Properties *)

(** ** Arrays *)

Lemma ravel_floats (xs : list float) : ravel (np_array_floats xs) = xs.
Proof.
  unfold np_array_floats. simpl.
  induction xs as [|x xs IH]; simpl; [reflexivity | now rewrite IH].
Qed.

Lemma ravel_one_port (xs : list float) : ravel (one_port xs) = xs.
Proof.
  unfold one_port. simpl.
  induction xs as [|x xs IH]; simpl; [reflexivity | now rewrite IH].
Qed.

Lemma reshape_one_port (xs : list float) :
  reshape_m1_1 (one_port xs) = column xs.
Proof. unfold reshape_m1_1. now rewrite ravel_one_port. Qed.

Lemma reshape_floats (xs : list float) :
  reshape_m1_1 (np_array_floats xs) = column xs.
Proof. unfold reshape_m1_1. now rewrite ravel_floats. Qed.

Lemma np_len_column (xs : list float) : np_len (column xs) = length xs.
Proof. unfold column. simpl. apply length_map. Qed.

Lemma column_inj (xs ys : list float) : column xs = column ys -> xs = ys.
Proof.
  unfold column. intros H. injection H as H. revert ys H.
  induction xs as [|x xs IH]; intros [|y ys] H; simpl in H;
    try discriminate; [reflexivity|].
  injection H as Hx Hrest. f_equal; [exact Hx | now apply IH].
Qed.

(** ** Selection *)

Lemma matches_empty (n : Network) : matches ∅ n = true.
Proof. unfold matches. now rewrite !lookup_empty. Qed.

Lemma sel_all (xs : list Network) : sel ∅ xs = xs.
Proof.
  unfold sel. induction xs as [|n xs IH]; simpl; [reflexivity|].
  rewrite matches_empty. now rewrite IH.
Qed.

Lemma matches_elevation_cut (v : float) (n : Network) :
  matches {["elevation" := v]} n = (param_elevation n =? v).
Proof.
  unfold matches.
  rewrite lookup_singleton_ne by discriminate.
  now rewrite lookup_singleton_eq.
Qed.

Lemma matches_azimuth_cut (v : float) (n : Network) :
  matches {["azimuth" := v]} n = (param_azimuth n =? v).
Proof.
  unfold matches.
  rewrite lookup_singleton_eq.
  rewrite lookup_singleton_ne by discriminate.
  simpl. apply andb_true_r.
Qed.

Lemma sel_elevation_cut (v : float) (xs : list Network) :
  sel {["elevation" := v]} xs
  = List.filter (fun n => param_elevation n =? v) xs.
Proof.
  unfold sel. induction xs as [|n xs IH]; simpl; [reflexivity|].
  rewrite matches_elevation_cut, IH. reflexivity.
Qed.

Lemma sel_azimuth_cut (v : float) (xs : list Network) :
  sel {["azimuth" := v]} xs
  = List.filter (fun n => param_azimuth n =? v) xs.
Proof.
  unfold sel. induction xs as [|n xs IH]; simpl; [reflexivity|].
  rewrite matches_azimuth_cut, IH. reflexivity.
Qed.

Lemma filter_none {A} (p : A -> bool) (xs : list A) :
  Forall (fun x => p x = false) xs -> List.filter p xs = [].
Proof.
  induction 1 as [|x xs Hx _ IH]; simpl; [reflexivity|].
  now rewrite Hx.
Qed.

Lemma nonempty_length {A} (xs : list A) :
  xs <> [] -> (length xs =? 0)%nat = false.
Proof. destruct xs; [congruence | reflexivity]. Qed.

(** ** The axis queries *)

(** C6, as the code has it: on a non-empty collection [azimuths] returns
    an N-by-1 column holding, in stored order, the azimuth of each record
    whose elevation equals 0, one entry per such record (a value shared by
    two such records appears twice); when no record has elevation 0 the
    axis is empty. *)
Theorem azimuths_elevation_cut (self : list Network) :
  self <> [] ->
  let cut := List.filter (fun n => param_elevation n =? 0) self in
  azimuths self = column (map param_azimuth cut)
  /\ np_len (azimuths self) = length cut
  /\ (Forall (fun n => (param_elevation n =? 0) = false) self ->
      azimuths self = Array []).
Proof.
  intros Hne cut.
  assert (Hq : azimuths self = column (map param_azimuth cut)).
  { unfold azimuths. rewrite (nonempty_length _ Hne).
    rewrite reshape_floats, sel_elevation_cut. reflexivity. }
  split; [exact Hq|]. split.
  - rewrite Hq, np_len_column. apply length_map.
  - intros Hnone. rewrite Hq. unfold cut.
    now rewrite (filter_none _ _ Hnone).
Qed.

Lemma azimuths_elevation_cut_witness :
  (grid9 <> []
   /\ azimuths grid9 = column [-20; 0; 20]
   /\ np_len (azimuths grid9) = 3%nat)
  /\ ([sweep 10 5; sweep 20 (-5)] <> []
      /\ Forall (fun n => (param_elevation n =? 0) = false)
                [sweep 10 5; sweep 20 (-5)]
      /\ azimuths [sweep 10 5; sweep 20 (-5)] = Array []).
Proof.
  split.
  - split; [discriminate|].
    destruct (azimuths_elevation_cut grid9) as (Hq & Hlen & _);
      [discriminate|].
    split; [exact Hq | exact Hlen].
  - assert (Hoff : Forall (fun n => (param_elevation n =? 0) = false)
                          [sweep 10 5; sweep 20 (-5)])
      by (repeat constructor).
    split; [discriminate|]. split; [exact Hoff|].
    destruct (azimuths_elevation_cut [sweep 10 5; sweep 20 (-5)])
      as (_ & _ & Hnone); [discriminate|].
    exact (Hnone Hoff).
Defined.

(** C6, as stated, fails: two records at the pose (10, 0) give the
    azimuth axis [[10], [10]], whose values are not distinct. *)
Lemma azimuths_repeats_shared_value :
  azimuths [sweep 10 0; sweep 10 0] = column [10; 10]
  /\ ~ (exists vs, azimuths [sweep 10 0; sweep 10 0] = column vs
                   /\ NoDup vs).
Proof.
  split; [reflexivity|].
  intros (vs & Hvs & Hnd).
  change (column [10; 10] = column vs) in Hvs.
  apply column_inj in Hvs. subst vs.
  apply NoDup_cons in Hnd as [Hin _]. apply Hin. left.
Qed.

(** C7: on a non-empty collection [elevations] returns a column holding,
    in stored order, the elevation of each record whose azimuth equals 0;
    on the nine records at elevations -10, 0, 10 crossed with azimuths
    -20, 0, 20 that is [-10, 0, 10]. *)
Theorem elevations_azimuth_cut (self : list Network) :
  (self <> [] ->
   let cut := List.filter (fun n => param_azimuth n =? 0) self in
   elevations self = column (map param_elevation cut)
   /\ np_len (elevations self) = length cut)
  /\ elevations grid9 = column [-10; 0; 10].
Proof.
  split; [|reflexivity].
  intros Hne cut.
  assert (Hq : elevations self = column (map param_elevation cut)).
  { unfold elevations. rewrite (nonempty_length _ Hne).
    rewrite reshape_floats, sel_azimuth_cut. reflexivity. }
  split; [exact Hq|].
  rewrite Hq, np_len_column. apply length_map.
Qed.

Lemma elevations_azimuth_cut_witness :
  [sweep 0 5; sweep 3 7; sweep (-0) 9] <> []
  /\ elevations [sweep 0 5; sweep 3 7; sweep (-0) 9] = column [5; 9].
Proof.
  split; [discriminate|].
  destruct (elevations_azimuth_cut [sweep 0 5; sweep 3 7; sweep (-0) 9])
    as [H _].
  destruct H as [Hq _]; [discriminate|]. exact Hq.
Defined.

(** C5: on an empty collection every query returns an empty array and
    none raises, whatever arguments [mags] is given; the collection the
    constructor builds is such a collection. *)
Theorem empty_collection_queries
    (np_log10 : float -> float) (np_abs : complex -> float)
    (getitem : Network -> string -> result Network)
    (freq : option string) (azimuth elevation : option float)
    (σ : gmap loc (list Network)) :
  freqs [] = Array []
  /\ azimuths [] = Array []
  /\ elevations [] = Array []
  /\ mags np_log10 np_abs getitem freq azimuth elevation [] = Ok (Array [])
  /\ exists c σ', NetworkModel_empty σ = Ok (c, σ')
                  /\ records σ' c = Some []
                  /\ len σ' c = Some 0%nat.
Proof.
  repeat (split; [reflexivity|]).
  eexists _, _. split; [reflexivity|].
  unfold records, len, records. simpl.
  rewrite lookup_insert_eq. split; reflexivity.
Qed.

(** ** Comprehensions *)

Lemma comprehension_ok {A B} (body : A -> result B) (xs : list A) :
  (forall x, x ∈ xs -> exists y, body x = Ok y) ->
  exists ys,
    comprehension body xs = Ok ys
    /\ length ys = length xs
    /\ forall i x, xs !! i = Some x ->
         exists y, body x = Ok y /\ ys !! i = Some y.
Proof.
  induction xs as [|x xs IH]; intros Hall.
  - exists []. repeat split; intros i x Hi; discriminate.
  - destruct (Hall x) as [y Hy]; [left|].
    destruct IH as (ys & Hys & Hlen & Hnth).
    { intros x' Hx'. apply Hall. now right. }
    exists (y :: ys). simpl. rewrite Hy. simpl. rewrite Hys. simpl.
    split; [reflexivity|]. split; [now rewrite Hlen|].
    intros [|i] x' Hi; simpl in Hi.
    + injection Hi as <-. exists y. now split.
    + now apply Hnth.
Qed.

(** ** [mags] *)

Section MagsProperties.

Variable np_log10 : float -> float.
Variable np_abs : complex -> float.
Variable getitem : Network -> string -> result Network.

#[local] Abbreviation mags' := (mags np_log10 np_abs getitem).
#[local] Abbreviation s_db' := (s_db np_log10 np_abs).
#[local] Abbreviation mag_db' := (mag_db np_log10 np_abs).

Lemma mags_nonempty_no_frequency azimuth elevation self :
  self <> [] ->
  mags' None azimuth elevation self
  = (n0 ← item0 (sel (mags_params azimuth elevation) self);
     mret (reshape_m1_1 (s_db' n0))).
Proof.
  intros Hne. unfold mags. now rewrite (nonempty_length _ Hne).
Qed.

(** C1: an angle of 0 adds no key to the filter, so [mags] with
    azimuth 0 (or elevation 0) is [mags] with that angle omitted, for
    every collection and every frequency argument. *)
Theorem mags_zero_angle_omitted
    (freq : option string) (other : option float) (self : list Network) :
  mags_params (Some 0) other = mags_params None other
  /\ mags_params other (Some 0) = mags_params other None
  /\ mags' freq (Some 0) other self = mags' freq None other self
  /\ mags' freq other (Some 0) self = mags' freq other None self.
Proof.
  assert (Ha : mags_params (Some 0) other = mags_params None other)
    by reflexivity.
  assert (He : mags_params other (Some 0) = mags_params other None)
    by reflexivity.
  split; [exact Ha|]. split; [exact He|].
  unfold mags. rewrite Ha, He. split; reflexivity.
Qed.

(** C2: the frequency branch does not flatten.  With a frequency label
    supplied, its lookup resolving on each record the angular filter
    matches, and K such records, K at least 1, [mags] returns K entries
    in stored order, the [i]-th being the dB magnitudes of the [i]-th
    matching record at the frequency looked up.  Each entry is still the
    F-by-1-by-1 array scikit-rf holds them in, so the result is a nested
    array and not the one-dimensional sequence of K numbers the claim
    states: the [reshape(-1, 1)] that ends every other return path of
    the class is missing here. *)
Theorem mags_at_frequency_nested
    (label : string) (azimuth elevation : option float)
    (self : list Network) :
  truthy_str label = true ->
  (forall n, n ∈ sel (mags_params azimuth elevation) self ->
             exists n', getitem n label = Ok n') ->
  sel (mags_params azimuth elevation) self <> [] ->
  exists rows,
    mags' (Some label) azimuth elevation self = Ok (Array rows)
    /\ length rows = length (sel (mags_params azimuth elevation) self)
    /\ (forall i n,
          sel (mags_params azimuth elevation) self !! i = Some n ->
          exists n',
            getitem n label = Ok n'
            /\ rows !! i = Some (one_port (map mag_db' (s n'))))
    /\ is_1d (Array rows) = false.
Proof.
  intros Hlabel Hall Hsome.
  destruct self as [|n0 self'].
  { now destruct Hsome. }
  set (self := n0 :: self') in *.
  set (body := fun n => n' ← getitem n label; mret (s_db' n')).
  destruct (comprehension_ok body (sel (mags_params azimuth elevation) self))
    as (rows & Hrows & Hlen & Hnth).
  { intros n Hn. destruct (Hall n Hn) as [n' Hn'].
    exists (s_db' n'). unfold body. now rewrite Hn'. }
  assert (Hrow : forall i n,
            sel (mags_params azimuth elevation) self !! i = Some n ->
            exists n',
              getitem n label = Ok n'
              /\ rows !! i = Some (one_port (map mag_db' (s n')))).
  { intros i n Hi. destruct (Hnth i n Hi) as (row & Hbody & Hi').
    unfold body in Hbody.
    destruct (getitem n label) as [n'|e] eqn:Hg; [|discriminate].
    simpl in Hbody. injection Hbody as <-.
    exists n'. split; [reflexivity | exact Hi']. }
  exists rows. split; [|split; [exact Hlen|split; [exact Hrow|]]].
  - unfold mags. subst self. simpl length. simpl Nat.eqb.
    cbv iota. rewrite Hlabel. fold body. now rewrite Hrows.
  - destruct (sel (mags_params azimuth elevation) self) as [|n ns] eqn:Hsel;
      [now destruct Hsome|].
    destruct (Hrow 0%nat n eq_refl) as (n' & _ & H0).
    destruct rows as [|row rows']; [discriminate|].
    simpl in H0. injection H0 as ->. reflexivity.
Qed.

(** C3: with the frequency omitted and an angular filter matching at
    least one record, [mags] returns the dB magnitudes of the first
    matching record alone, over its whole grid, as an N-by-1 column with
    as many rows as the frequency grid has points. *)
Theorem mags_over_frequency
    (azimuth elevation : option float) (self : list Network)
    (first : Network) (rest : list Network) :
  sel (mags_params azimuth elevation) self = first :: rest ->
  parallel first ->
  mags' None azimuth elevation self = Ok (column (map mag_db' (s first)))
  /\ np_len (column (map mag_db' (s first))) = length (frequency_f first).
Proof.
  intros Hsel Hpar. split.
  - rewrite mags_nonempty_no_frequency.
    + rewrite Hsel. simpl. unfold s_db.
      now rewrite reshape_one_port.
    + intros ->. discriminate.
  - rewrite np_len_column, length_map. exact Hpar.
Qed.

(** C9: there are a non-empty collection and a non-zero azimuth matching
    none of its records for which [mags] with a frequency returns an
    empty array and [mags] without one raises IndexError. *)
Theorem mags_unmatched_filter_asymmetry :
  exists (self : list Network) (azimuth : float) (label : string),
    self <> []
    /\ truthy_float azimuth = true
    /\ sel (mags_params (Some azimuth) None) self = []
    /\ mags' (Some label) (Some azimuth) None self = Ok (Array [])
    /\ mags' None (Some azimuth) None self = Raise IndexError.
Proof.
  exists [sweep 0 0], 5, "1ghz"%string.
  split; [discriminate|]. repeat split.
Qed.

End MagsProperties.

(** C10: the empty string as the frequency argument takes the branch of
    an omitted frequency: the two calls agree on every collection, no
    lookup of the label takes place, and on a collection with a matching
    record the result is the first matching record's whole dB column. *)
Theorem mags_empty_label_omitted
    (np_log10 : float -> float) (np_abs : complex -> float)
    (getitem getitem' : Network -> string -> result Network)
    (azimuth elevation : option float) (self : list Network) :
  mags np_log10 np_abs getitem (Some ""%string) azimuth elevation self
  = mags np_log10 np_abs getitem' None azimuth elevation self
  /\ (self <> [] ->
      forall first rest,
        sel (mags_params azimuth elevation) self = first :: rest ->
        mags np_log10 np_abs getitem (Some ""%string) azimuth elevation self
        = Ok (column (map (mag_db np_log10 np_abs) (s first)))).
Proof.
  split; [reflexivity|].
  intros Hne first rest Hsel.
  change (mags np_log10 np_abs getitem (Some ""%string) azimuth elevation self)
    with (mags np_log10 np_abs getitem None azimuth elevation self).
  rewrite mags_nonempty_no_frequency by exact Hne.
  rewrite Hsel. simpl. unfold s_db. now rewrite reshape_one_port.
Qed.

Lemma mags_empty_label_omitted_witness :
  grid9 <> []
  /\ sel (mags_params (Some 20) None) grid9
     = sweep 20 (-10) :: [sweep 20 0; sweep 20 10]
  /\ mags sample_log10 sample_abs exact_bin (Some ""%string) (Some 20) None
       grid9
     = Ok (column [20; 0]).
Proof.
  assert (Hne : grid9 <> []) by discriminate.
  assert (Hsel : sel (mags_params (Some 20) None) grid9
                 = sweep 20 (-10) :: [sweep 20 0; sweep 20 10])
    by reflexivity.
  split; [exact Hne|]. split; [exact Hsel|].
  destruct (mags_empty_label_omitted sample_log10 sample_abs exact_bin
              exact_bin (Some 20) None grid9) as [_ H].
  exact (H Hne _ _ Hsel).
Defined.

Lemma mags_at_frequency_nested_witness :
  truthy_str "1ghz" = true
  /\ (forall n, n ∈ sel (mags_params None None) [sweep 0 0; sweep 10 0] ->
                exists n', exact_bin n "1ghz" = Ok n')
  /\ sel (mags_params None None) [sweep 0 0; sweep 10 0] <> []
  /\ mags sample_log10 sample_abs exact_bin (Some "1ghz"%string) None None
       [sweep 0 0; sweep 10 0]
     = Ok (Array [one_port [20]; one_port [20]])
  /\ is_1d (Array [one_port [20]; one_port [20]]) = false
  /\ mags sample_log10 sample_abs exact_bin None None None
       [sweep 0 0; sweep 10 0]
     = Ok (column [20; 0]).
Proof.
  assert (Hall : forall n,
            n ∈ sel (mags_params None None) [sweep 0 0; sweep 10 0] ->
            exists n', exact_bin n "1ghz" = Ok n').
  { intros n Hn.
    change (n ∈ [sweep 0 0; sweep 10 0]) in Hn.
    repeat (apply elem_of_cons in Hn as [-> | Hn]; [eexists; reflexivity|]).
    now apply elem_of_nil in Hn. }
  assert (Hsome : sel (mags_params None None) [sweep 0 0; sweep 10 0] <> [])
    by discriminate.
  split; [reflexivity|]. split; [exact Hall|]. split; [exact Hsome|].
  destruct (mags_at_frequency_nested sample_log10 sample_abs exact_bin
              "1ghz" None None [sweep 0 0; sweep 10 0] eq_refl Hall Hsome)
    as (rows & Hrows & _ & _ & Hnested).
  assert (Hval : mags sample_log10 sample_abs exact_bin
                   (Some "1ghz"%string) None None [sweep 0 0; sweep 10 0]
                 = Ok (Array [one_port [20]; one_port [20]]))
    by reflexivity.
  split; [exact Hval|].
  rewrite Hval in Hrows. injection Hrows as <-.
  split; [exact Hnested | reflexivity].
Defined.

Lemma mags_over_frequency_witness :
  sel (mags_params (Some 20) (Some 10)) grid9 = sweep 20 10 :: []
  /\ parallel (sweep 20 10)
  /\ mags sample_log10 sample_abs exact_bin None (Some 20) (Some 10) grid9
     = Ok (column [20; 0])
  /\ np_len (column [20; 0]) = 2%nat.
Proof.
  assert (Hsel : sel (mags_params (Some 20) (Some 10)) grid9
                 = sweep 20 10 :: []) by reflexivity.
  assert (Hpar : parallel (sweep 20 10)) by reflexivity.
  split; [exact Hsel|]. split; [exact Hpar|].
  exact (mags_over_frequency sample_log10 sample_abs exact_bin
           (Some 20) (Some 10) grid9 _ _ Hsel Hpar).
Defined.

(** ** [append] *)

(** What a run of [append] does to the store: two list objects are
    allocated, the copy made by [sel] and the list built from it; only the
    second is extended, and the new collection wraps it. *)
Lemma append_run (σ : gmap loc (list Network)) (self : NetworkModel)
    (ntwk : Network) (xs : list Network) :
  records σ self = Some xs ->
  exists r1 r2 : loc,
    σ !! r1 = None
    /\ σ !! r2 = None
    /\ r1 <> r2
    /\ append self ntwk σ
       = Ok (mkNetworkModel r2, <[r2 := xs ++ [ntwk]]> (<[r1 := xs]> σ)).
Proof.
  unfold records. intros Hself.
  set (r1 := fresh (dom σ)).
  set (σ1 := <[r1 := xs]> σ).
  set (r2 := fresh (dom σ1)).
  assert (H1 : σ !! r1 = None).
  { apply not_elem_of_dom. apply is_fresh. }
  assert (H2 : σ1 !! r2 = None).
  { apply not_elem_of_dom. apply is_fresh. }
  assert (Hne : r1 <> r2).
  { intros Heq. rewrite <- Heq in H2. unfold σ1 in H2.
    rewrite lookup_insert_eq in H2. discriminate. }
  exists r1, r2. split; [exact H1|]. split.
  { unfold σ1 in H2. now rewrite lookup_insert_ne in H2. }
  split; [exact Hne|].
  unfold append, NetworkSet_sel, list_of, list_append, NetworkModel_init,
    read_list, new_list, mbind, M_bind, mret, M_ret.
  rewrite Hself, sel_all. fold r1. fold σ1.
  cbn [ntwk_set]. unfold σ1 at 1. rewrite lookup_insert_eq.
  fold σ1. fold r2. rewrite lookup_insert_eq.
  now rewrite insert_insert_eq.
Qed.

(** C4: [append] returns a new collection holding the receiver's records,
    in order, followed by the new one; the receiver still holds its N
    records, unchanged, as does every list the store already held. *)
Theorem append_leaves_receiver (σ : gmap loc (list Network))
    (self : NetworkModel) (ntwk : Network) (xs : list Network) :
  records σ self = Some xs ->
  exists (new : NetworkModel) (σ' : gmap loc (list Network)),
    append self ntwk σ = Ok (new, σ')
    /\ records σ' new = Some (xs ++ [ntwk])
    /\ len σ' new = Some (S (length xs))
    /\ records σ' self = Some xs
    /\ len σ' self = Some (length xs)
    /\ ntwk_set new <> ntwk_set self
    /\ forall (r : loc) (ys : list Network),
         σ !! r = Some ys -> σ' !! r = Some ys.
Proof.
  intros Hself.
  destruct (append_run σ self ntwk xs Hself)
    as (r1 & r2 & H1 & H2 & Hne & Hrun).
  unfold records in Hself.
  assert (Hframe : forall r ys, σ !! r = Some ys ->
            <[r2 := xs ++ [ntwk]]> (<[r1 := xs]> σ) !! r = Some ys).
  { intros r ys Hr.
    rewrite !lookup_insert_ne by congruence. exact Hr. }
  eexists _, _. split; [exact Hrun|].
  unfold len, records. cbn [ntwk_set].
  rewrite lookup_insert_eq, (Hframe _ _ Hself). cbn.
  rewrite length_app. cbn.
  repeat split; try reflexivity.
  - f_equal. lia.
  - congruence.
  - exact Hframe.
Qed.

Lemma append_leaves_receiver_witness :
  records {[ 1%positive := [sweep 0 0; sweep 10 0] ]} (mkNetworkModel 1%positive)
  = Some [sweep 0 0; sweep 10 0]
  /\ exists new σ',
       append (mkNetworkModel 1%positive) (sweep 0 10)
         {[ 1%positive := [sweep 0 0; sweep 10 0] ]} = Ok (new, σ')
       /\ records σ' new = Some [sweep 0 0; sweep 10 0; sweep 0 10]
       /\ records σ' (mkNetworkModel 1%positive) = Some [sweep 0 0; sweep 10 0].
Proof.
  assert (H : records {[ 1%positive := [sweep 0 0; sweep 10 0] ]}
                (mkNetworkModel 1%positive) = Some [sweep 0 0; sweep 10 0])
    by reflexivity.
  split; [exact H|].
  destruct (append_leaves_receiver _ _ (sweep 0 10) _ H)
    as (new & σ' & Hrun & Hnew & _ & Hold & _).
  exists new, σ'. split; [exact Hrun|]. split; [exact Hnew | exact Hold].
Defined.

(** C8: appending a measurement at a pose the collection already holds a
    record for keeps both: the result has N+1 records, the earlier one at
    its place and the new one last; nothing is overwritten. *)
Theorem append_keeps_same_pose (σ : gmap loc (list Network))
    (self : NetworkModel) (ntwk prior : Network) (xs : list Network)
    (i : nat) :
  records σ self = Some xs ->
  xs !! i = Some prior ->
  same_pose prior ntwk = true ->
  exists (new : NetworkModel) (σ' : gmap loc (list Network)),
    append self ntwk σ = Ok (new, σ')
    /\ records σ' new = Some (xs ++ [ntwk])
    /\ len σ' new = Some (S (length xs))
    /\ (xs ++ [ntwk]) !! i = Some prior
    /\ (xs ++ [ntwk]) !! length xs = Some ntwk
    /\ i <> length xs.
Proof.
  intros Hself Hprior _.
  destruct (append_run σ self ntwk xs Hself)
    as (r1 & r2 & _ & _ & _ & Hrun).
  eexists _, _. split; [exact Hrun|].
  unfold len, records. cbn [ntwk_set]. rewrite lookup_insert_eq. cbn.
  split; [reflexivity|].
  split; [rewrite length_app; cbn; f_equal; lia|].
  split; [now apply lookup_app_l_Some|].
  split; [rewrite lookup_app_r by lia; now rewrite Nat.sub_diag|].
  apply lookup_lt_Some in Hprior. lia.
Qed.

Lemma append_keeps_same_pose_witness :
  records {[ 1%positive := [sweep 0 0; sweep 10 0] ]}
    (mkNetworkModel 1%positive)
  = Some [sweep 0 0; sweep 10 0]
  /\ [sweep 0 0; sweep 10 0] !! 1%nat = Some (sweep 10 0)
  /\ same_pose (sweep 10 0) (mkNetwork [1e9; 2e9] [(100, 0); (10, 0)] 10 0)
     = true
  /\ exists new σ',
       append (mkNetworkModel 1%positive)
         (mkNetwork [1e9; 2e9] [(100, 0); (10, 0)] 10 0)
         {[ 1%positive := [sweep 0 0; sweep 10 0] ]} = Ok (new, σ')
       /\ records σ' new
          = Some [sweep 0 0; sweep 10 0;
                  mkNetwork [1e9; 2e9] [(100, 0); (10, 0)] 10 0]
       /\ len σ' new = Some 3%nat.
Proof.
  assert (H : records {[ 1%positive := [sweep 0 0; sweep 10 0] ]}
                (mkNetworkModel 1%positive) = Some [sweep 0 0; sweep 10 0])
    by reflexivity.
  split; [exact H|]. split; [reflexivity|]. split; [reflexivity|].
  destruct (append_keeps_same_pose _ _
              (mkNetwork [1e9; 2e9] [(100, 0); (10, 0)] 10 0)
              (sweep 10 0) _ 1%nat H eq_refl eq_refl)
    as (new & σ' & Hrun & Hnew & Hlen & _).
  exists new, σ'. split; [exact Hrun|]. split; [exact Hnew | exact Hlen].
Defined.

(** * Further properties of the queries and of [append] *)

(** ** Helpers *)

Lemma ravel_column (xs : list float) : ravel (column xs) = xs.
Proof.
  unfold column. simpl.
  induction xs as [|x xs IH]; simpl; [reflexivity | now rewrite IH].
Qed.

Lemma azimuths_column (xs : list Network) :
  azimuths xs
  = column (map param_azimuth
              (List.filter (fun n => param_elevation n =? 0) xs)).
Proof.
  destruct xs as [|n xs]; [reflexivity|].
  unfold azimuths. cbn [length Nat.eqb].
  now rewrite reshape_floats, sel_elevation_cut.
Qed.

Lemma elevations_column (xs : list Network) :
  elevations xs
  = column (map param_elevation
              (List.filter (fun n => param_azimuth n =? 0) xs)).
Proof.
  destruct xs as [|n xs]; [reflexivity|].
  unfold elevations. cbn [length Nat.eqb].
  now rewrite reshape_floats, sel_azimuth_cut.
Qed.

Lemma matches_mags_params (azimuth elevation : option float) (n : Network) :
  matches (mags_params azimuth elevation) n = admitted azimuth elevation n.
Proof.
  unfold matches, mags_params, admitted, angle_admits.
  destruct azimuth as [a|], elevation as [e|];
    try destruct (truthy_float a); try destruct (truthy_float e);
    simplify_map_eq; reflexivity.
Qed.

Lemma sel_mags_params (azimuth elevation : option float)
    (xs : list Network) :
  sel (mags_params azimuth elevation) xs
  = List.filter (admitted azimuth elevation) xs.
Proof.
  unfold sel. induction xs as [|n xs IH]; simpl; [reflexivity|].
  now rewrite matches_mags_params, IH.
Qed.

Lemma sel_app (indexers : gmap string float) (xs ys : list Network) :
  sel indexers (xs ++ ys) = sel indexers xs ++ sel indexers ys.
Proof. unfold sel. apply List.filter_app. Qed.

Lemma comprehension_app {A B} (body : A -> result B) (xs ys : list A) :
  comprehension body (xs ++ ys)
  = (a ← comprehension body xs;
     b ← comprehension body ys;
     mret (a ++ b)).
Proof.
  induction xs as [|x xs IH]; simpl.
  - destruct (comprehension body ys); reflexivity.
  - destruct (body x) as [y|e]; simpl; [|reflexivity].
    rewrite IH.
    destruct (comprehension body xs) as [a|e]; simpl; [|reflexivity].
    destruct (comprehension body ys) as [b|e]; reflexivity.
Qed.

Lemma comprehension_raises {A B} (body : A -> result B) (xs : list A)
    (e : exception) :
  comprehension body xs = Raise e
  <-> exists pre x post,
        xs = pre ++ x :: post
        /\ (forall p, p ∈ pre -> exists y, body p = Ok y)
        /\ body x = Raise e.
Proof.
  split.
  - induction xs as [|x xs IH]; simpl; [discriminate|].
    destruct (body x) as [y|e'] eqn:Hx; simpl.
    + destruct (comprehension body xs) as [ys|e'] eqn:Hxs; simpl;
        [discriminate|].
      intros [= ->]. destruct (IH eq_refl) as (pre & x' & post & -> & Hpre & Hx').
      exists (x :: pre), x', post. split; [reflexivity|]. split; [|exact Hx'].
      intros p [->|Hp]%elem_of_cons; [eauto | now apply Hpre].
    + intros [= ->]. exists [], x, xs. split; [reflexivity|].
      split; [|exact Hx]. intros p Hp. now apply elem_of_nil in Hp.
  - intros (pre & x & post & -> & Hpre & Hx).
    induction pre as [|p pre IH]; simpl.
    + now rewrite Hx.
    + destruct (Hpre p) as [y Hy]; [left|]. rewrite Hy. simpl.
      rewrite IH; [reflexivity|].
      intros q Hq. apply Hpre. now right.
Qed.

Lemma admitted_without_angles (azimuth elevation : option float)
    (n : Network) :
  angle_given azimuth = false ->
  angle_given elevation = false ->
  admitted azimuth elevation n = true.
Proof.
  unfold angle_given, admitted, angle_admits.
  destruct azimuth as [a|], elevation as [e|]; intros Ha He;
    try rewrite Ha; try rewrite He; reflexivity.
Qed.

Lemma filter_all {A} (p : A -> bool) (xs : list A) :
  (forall x, p x = true) -> List.filter p xs = xs.
Proof.
  intros Hp. induction xs as [|x xs IH]; simpl; [reflexivity|].
  now rewrite Hp, IH.
Qed.

Lemma filter_agree {A} (p q : A -> bool) (xs : list A) :
  (forall x, x ∈ xs -> p x = q x) -> List.filter p xs = List.filter q xs.
Proof.
  induction xs as [|x xs IH]; intros Hpq; simpl; [reflexivity|].
  rewrite (Hpq x) by left. rewrite IH; [reflexivity|].
  intros y Hy. apply Hpq. now right.
Qed.

Lemma filter_shorter {A} (p : A -> bool) (xs : list A) (x : A) :
  x ∈ xs -> p x = false -> (length (List.filter p xs) < length xs)%nat.
Proof.
  induction xs as [|y xs IH]; intros Hin Hx.
  - now apply elem_of_nil in Hin.
  - apply elem_of_cons in Hin as [<- | Hin]; simpl.
    + rewrite Hx. pose proof (List.filter_length_le p xs). lia.
    + specialize (IH Hin Hx). destruct (p y); simpl; lia.
Qed.

(** What a run of [append] leaves in the store, for the queries. *)
Lemma append_records (σ : gmap loc (list Network)) (self : NetworkModel)
    (ntwk : Network) (xs : list Network) :
  records σ self = Some xs ->
  exists (new : NetworkModel) (σ' : gmap loc (list Network)),
    append self ntwk σ = Ok (new, σ')
    /\ records σ' new = Some (xs ++ [ntwk])
    /\ σ !! ntwk_set new = None
    /\ forall (c : NetworkModel) (ys : list Network),
         records σ c = Some ys -> records σ' c = Some ys.
Proof.
  intros Hself.
  destruct (append_run σ self ntwk xs Hself)
    as (r1 & r2 & H1 & H2 & Hne & Hrun).
  unfold records in *.
  eexists _, _. split; [exact Hrun|]. cbn [ntwk_set].
  split; [apply lookup_insert_eq|]. split; [exact H2|].
  intros c ys Hc.
  rewrite !lookup_insert_ne by congruence. exact Hc.
Qed.

(** ** [mags]: failures, selection, and what [append] does to its answers *)

Section MagsFurther.

Variable np_log10 : float -> float.
Variable np_abs : complex -> float.
Variable getitem : Network -> string -> result Network.

#[local] Abbreviation mags_ := (mags np_log10 np_abs getitem).
#[local] Abbreviation s_db_ := (s_db np_log10 np_abs).
#[local] Abbreviation mag_db_ := (mag_db np_log10 np_abs).

(** The body of the comprehension in the frequency branch. *)
#[local] Abbreviation row_at label :=
  (fun n : Network => n' ← getitem n label; mret (s_db_ n')).

Lemma mags_frequency_rows (label : string) (azimuth elevation : option float)
    (self : list Network) :
  truthy_str label = true ->
  mags_ (Some label) azimuth elevation self
  = (rows ← comprehension (row_at label)
              (List.filter (admitted azimuth elevation) self);
     mret (Array rows)).
Proof.
  intros Hlabel. destruct self as [|n self]; [reflexivity|].
  unfold mags. cbn [length Nat.eqb]. rewrite Hlabel.
  now rewrite sel_mags_params.
Qed.

Lemma mags_no_frequency_first (azimuth elevation : option float)
    (self : list Network) :
  self <> [] ->
  mags_ None azimuth elevation self
  = (n0 ← item0 (List.filter (admitted azimuth elevation) self);
     mret (column (map mag_db_ (s n0)))).
Proof.
  intros Hne. rewrite mags_nonempty_no_frequency by exact Hne.
  rewrite sel_mags_params.
  destruct (List.filter (admitted azimuth elevation) self); simpl;
    [reflexivity|].
  unfold s_db. now rewrite reshape_one_port.
Qed.

(** X1: without a frequency, [mags] fails in exactly one way: it raises
    IndexError when the collection is non-empty and no record is admitted
    by the angles given; in every other case it returns. *)
Theorem mags_no_frequency_failure
    (azimuth elevation : option float) (self : list Network)
    (e : exception) :
  mags_ None azimuth elevation self = Raise e
  <-> e = IndexError
      /\ self <> []
      /\ List.filter (admitted azimuth elevation) self = [].
Proof.
  destruct self as [|n self].
  - split; [discriminate|]. intros (_ & Hne & _). now destruct Hne.
  - rewrite mags_no_frequency_first by discriminate.
    destruct (List.filter (admitted azimuth elevation) (n :: self))
      as [|n0 rest]; simpl.
    + split.
      * intros [= <-]. repeat split. discriminate.
      * intros (-> & _). reflexivity.
    + split; [discriminate|]. intros (_ & _ & H). discriminate.
Qed.


(** X2: with a frequency label, [mags] raises exactly when the lookup of
    the label raises on some admitted record, and the exception is that
    of the first such record in stored order. *)
Theorem mags_frequency_failure
    (label : string) (azimuth elevation : option float)
    (self : list Network) (e : exception) :
  truthy_str label = true ->
  (mags_ (Some label) azimuth elevation self = Raise e
   <-> exists pre n post,
         List.filter (admitted azimuth elevation) self = pre ++ n :: post
         /\ (forall p, p ∈ pre -> exists p', getitem p label = Ok p')
         /\ getitem n label = Raise e).
Proof.
  intros Hlabel. rewrite mags_frequency_rows by exact Hlabel.
  set (sel_ := List.filter (admitted azimuth elevation) self).
  assert (Hrows :
    (rows ← comprehension (row_at label) sel_; mret (Array rows))
      = Raise e
    <-> comprehension (row_at label) sel_ = Raise e).
  { destruct (comprehension (row_at label) sel_);
      unfold mbind, result_bind, mret, result_ret; split; congruence. }
  rewrite Hrows, comprehension_raises.
  split; intros (pre & n & post & Hsplit & Hpre & Hn);
    exists pre, n, post; (split; [exact Hsplit|]); split.
  - intros p Hp. destruct (Hpre p Hp) as [y Hy].
    destruct (getitem p label) as [p'|]; [eauto | discriminate].
  - unfold mbind, result_bind, mret, result_ret in Hn.
    destruct (getitem n label); congruence.
  - intros p Hp. destruct (Hpre p Hp) as [p' Hp'].
    rewrite Hp'. eexists. reflexivity.
  - now rewrite Hn.
Qed.

(** X3: with no angle given (each omitted or falsy), [mags] without a
    frequency never fails on a non-empty collection: it returns the dB
    column of the first stored record, whatever its pose. *)
Theorem mags_without_angles
    (azimuth elevation : option float) (n : Network)
    (rest : list Network) :
  angle_given azimuth = false ->
  angle_given elevation = false ->
  mags_ None azimuth elevation (n :: rest)
  = Ok (column (map mag_db_ (s n))).
Proof.
  intros Ha He. rewrite mags_no_frequency_first by discriminate.
  rewrite filter_all; [reflexivity|].
  intros x. now apply admitted_without_angles.
Qed.

(** X4: the angle arguments of [mags] act only through the records they
    admit: the selection is the stored records whose azimuth equals the
    azimuth given and whose elevation equals the elevation given, an
    omitted or falsy angle asking nothing; two pairs of angles that admit
    the same records of a collection give the same result. *)
Theorem mags_selection
    (freq : option string) (azimuth elevation azimuth' elevation' :
    option float) (self : list Network) :
  sel (mags_params azimuth elevation) self
  = List.filter (admitted azimuth elevation) self
  /\ ((forall n, n ∈ self ->
         admitted azimuth elevation n = admitted azimuth' elevation' n) ->
      mags_ freq azimuth elevation self
      = mags_ freq azimuth' elevation' self).
Proof.
  split; [apply sel_mags_params|].
  intros Hsame.
  assert (Hsel : sel (mags_params azimuth elevation) self
                 = sel (mags_params azimuth' elevation') self).
  { rewrite !sel_mags_params. now apply filter_agree. }
  unfold mags. now rewrite Hsel.
Qed.

(** X5: the polar-cut call [mags(freq, elevation=0)] does not cut: with
    every lookup resolving it returns one row per stored record, while
    [azimuths] has one row per record at elevation 0, so the two differ
    in length as soon as one record is off that cut. *)
Theorem mags_elevation_zero_not_cut
    (label : string) (self : list Network) :
  truthy_str label = true ->
  (forall n, n ∈ self -> exists n', getitem n label = Ok n') ->
  exists rows,
    mags_ (Some label) None (Some 0) self = Ok (Array rows)
    /\ length rows = length self
    /\ np_len (azimuths self)
       = length (List.filter (fun n => param_elevation n =? 0) self)
    /\ ((exists n, n ∈ self /\ (param_elevation n =? 0) = false) ->
        (np_len (azimuths self) < length rows)%nat).
Proof.
  intros Hlabel Hall.
  assert (Hsel : List.filter (admitted None (Some 0)) self = self).
  { apply filter_all. intros x. now apply admitted_without_angles. }
  destruct (comprehension_ok (row_at label) self) as (rows & Hrows & Hlen & _).
  { intros n Hn. destruct (Hall n Hn) as [n' Hn'].
    exists (s_db_ n'). now rewrite Hn'. }
  assert (Hax : np_len (azimuths self)
                = length (List.filter (fun n => param_elevation n =? 0) self)).
  { rewrite azimuths_column, np_len_column. apply length_map. }
  exists rows. split.
  { rewrite mags_frequency_rows by exact Hlabel. rewrite Hsel, Hrows.
    reflexivity. }
  split; [exact Hlen|]. split; [exact Hax|].
  intros (n & Hn & Hoff). rewrite Hax, Hlen.
  exact (filter_shorter _ _ n Hn Hoff).
Qed.

(** X6: a record appended at a pose with both angles non-zero, and held
    by no earlier record, is found again: [mags] without a frequency at
    that pose returns the dB column of the record just appended. *)
Theorem append_then_mags_at_pose
    (σ : gmap loc (list Network)) (self : NetworkModel) (ntwk : Network)
    (xs : list Network) :
  records σ self = Some xs ->
  truthy_float (param_azimuth ntwk) = true ->
  truthy_float (param_elevation ntwk) = true ->
  same_pose ntwk ntwk = true ->
  (forall x, x ∈ xs -> same_pose x ntwk = false) ->
  exists (new : NetworkModel) (σ' : gmap loc (list Network)),
    append self ntwk σ = Ok (new, σ')
    /\ records σ' new = Some (xs ++ [ntwk])
    /\ mags_ None (Some (param_azimuth ntwk)) (Some (param_elevation ntwk))
         (xs ++ [ntwk])
       = Ok (column (map mag_db_ (s ntwk))).
Proof.
  intros Hself Ha He Hrefl Hfresh.
  destruct (append_records σ self ntwk xs Hself)
    as (new & σ' & Hrun & Hnew & _).
  exists new, σ'. split; [exact Hrun|]. split; [exact Hnew|].
  assert (Hpose : forall x,
            admitted (Some (param_azimuth ntwk))
              (Some (param_elevation ntwk)) x = same_pose x ntwk).
  { intros x. unfold admitted, angle_admits, same_pose.
    now rewrite Ha, He. }
  rewrite mags_no_frequency_first by (now destruct xs).
  rewrite List.filter_app. cbn [List.filter].
  rewrite (filter_none _ xs).
  - rewrite Hpose, Hrefl. reflexivity.
  - apply Forall_forall. intros x Hx. rewrite Hpose. now apply Hfresh.
Qed.

(** X7: appending never changes the answer of [mags] without a frequency
    once some record is admitted: the first admitted record stays first,
    so a later record at the same pose is never the one returned. *)
Theorem append_keeps_first_match
    (σ : gmap loc (list Network)) (self : NetworkModel) (ntwk : Network)
    (xs : list Network) (azimuth elevation : option float) :
  records σ self = Some xs ->
  List.filter (admitted azimuth elevation) xs <> [] ->
  exists (new : NetworkModel) (σ' : gmap loc (list Network)),
    append self ntwk σ = Ok (new, σ')
    /\ records σ' new = Some (xs ++ [ntwk])
    /\ mags_ None azimuth elevation (xs ++ [ntwk])
       = mags_ None azimuth elevation xs.
Proof.
  intros Hself Hsome.
  destruct (append_records σ self ntwk xs Hself)
    as (new & σ' & Hrun & Hnew & _).
  exists new, σ'. split; [exact Hrun|]. split; [exact Hnew|].
  assert (Hne : xs <> []) by (intros ->; now apply Hsome).
  rewrite !mags_no_frequency_first by (try exact Hne; now destruct xs).
  rewrite List.filter_app.
  destruct (List.filter (admitted azimuth elevation) xs); [now destruct Hsome|].
  reflexivity.
Qed.

(** X8: appending extends the answer of [mags] at a frequency at its end
    only: the rows obtained before are kept in place, and one row is
    added last when the new record is admitted (its lookup deciding
    whether the call returns or raises). *)
Theorem append_extends_frequency_rows
    (σ : gmap loc (list Network)) (self : NetworkModel) (ntwk : Network)
    (xs : list Network) (label : string)
    (azimuth elevation : option float) (rows : list ndarray) :
  records σ self = Some xs ->
  truthy_str label = true ->
  mags_ (Some label) azimuth elevation xs = Ok (Array rows) ->
  exists (new : NetworkModel) (σ' : gmap loc (list Network)),
    append self ntwk σ = Ok (new, σ')
    /\ records σ' new = Some (xs ++ [ntwk])
    /\ mags_ (Some label) azimuth elevation (xs ++ [ntwk])
       = if admitted azimuth elevation ntwk
         then n' ← getitem ntwk label; mret (Array (rows ++ [s_db_ n']))
         else Ok (Array rows).
Proof.
  intros Hself Hlabel Hrows.
  destruct (append_records σ self ntwk xs Hself)
    as (new & σ' & Hrun & Hnew & _).
  exists new, σ'. split; [exact Hrun|]. split; [exact Hnew|].
  rewrite mags_frequency_rows in Hrows |- * by exact Hlabel.
  rewrite List.filter_app, comprehension_app.
  destruct (comprehension (row_at label)
              (List.filter (admitted azimuth elevation) xs))
    as [rows'|]; simpl in Hrows; [|discriminate].
  injection Hrows as ->. simpl.
  destruct (admitted azimuth elevation ntwk); simpl.
  - destruct (getitem ntwk label); reflexivity.
  - now rewrite app_nil_r.
Qed.

End MagsFurther.
Lemma mags_no_frequency_failure_witness :
  mags sample_log10 sample_abs exact_bin None (Some 5) None grid9
  = Raise IndexError.
Proof.
  apply (mags_no_frequency_failure sample_log10 sample_abs exact_bin).
  split; [reflexivity|]. split; [discriminate | reflexivity].
Defined.

Lemma mags_frequency_failure_witness :
  truthy_str "2ghz" = true
  /\ mags sample_log10 sample_abs exact_bin (Some "2ghz"%string) None None
       [sweep 0 0; one_point; sweep 10 0]
     = Raise KeyError.
Proof.
  split; [reflexivity|].
  apply (mags_frequency_failure sample_log10 sample_abs exact_bin "2ghz"
           None None [sweep 0 0; one_point; sweep 10 0] KeyError eq_refl).
  exists [sweep 0 0], one_point, [sweep 10 0].
  split; [reflexivity|]. split; [|reflexivity].
  intros p Hp. apply list_elem_of_singleton in Hp as ->.
  eexists. reflexivity.
Defined.

Lemma mags_without_angles_witness :
  angle_given (Some (-0)) = false
  /\ angle_given None = false
  /\ mags sample_log10 sample_abs exact_bin None (Some (-0)) None grid9
     = Ok (column [20; 0]).
Proof.
  split; [reflexivity|]. split; [reflexivity|].
  exact (mags_without_angles sample_log10 sample_abs exact_bin
           (Some (-0)) None (sweep (-20) (-10)) _ eq_refl eq_refl).
Defined.

Lemma mags_selection_witness :
  (forall n, n ∈ grid9 ->
     admitted (Some 0) (Some 10) n = admitted None (Some 10) n)
  /\ mags sample_log10 sample_abs exact_bin (Some "1ghz"%string)
       (Some 0) (Some 10) grid9
     = mags sample_log10 sample_abs exact_bin (Some "1ghz"%string)
         None (Some 10) grid9.
Proof.
  assert (H : forall n, n ∈ grid9 ->
                admitted (Some 0) (Some 10) n = admitted None (Some 10) n)
    by (intros n _; reflexivity).
  split; [exact H|].
  destruct (mags_selection sample_log10 sample_abs exact_bin
              (Some "1ghz"%string) (Some 0) (Some 10) None (Some 10) grid9)
    as [_ Hsame].
  exact (Hsame H).
Defined.

Lemma mags_elevation_zero_not_cut_witness :
  truthy_str "1ghz" = true
  /\ (forall n, n ∈ grid9 -> exists n', exact_bin n "1ghz" = Ok n')
  /\ (exists n, n ∈ grid9 /\ (param_elevation n =? 0) = false)
  /\ exists rows,
       mags sample_log10 sample_abs exact_bin (Some "1ghz"%string)
         None (Some 0) grid9 = Ok (Array rows)
       /\ length rows = 9%nat
       /\ np_len (azimuths grid9) = 3%nat
       /\ (np_len (azimuths grid9) < length rows)%nat.
Proof.
  assert (Hall : forall n, n ∈ grid9 ->
                           exists n', exact_bin n "1ghz" = Ok n').
  { intros n Hn. unfold grid9 in Hn.
    repeat (apply elem_of_cons in Hn as [-> | Hn]; [eexists; reflexivity|]).
    now apply elem_of_nil in Hn. }
  assert (Hoff : exists n, n ∈ grid9 /\ (param_elevation n =? 0) = false).
  { exists (sweep (-20) (-10)). split; [left | reflexivity]. }
  split; [reflexivity|]. split; [exact Hall|]. split; [exact Hoff|].
  destruct (mags_elevation_zero_not_cut sample_log10 sample_abs exact_bin
              "1ghz" grid9 eq_refl Hall)
    as (rows & Hrows & Hlen & Hax & Hlt).
  exists rows. split; [exact Hrows|]. split; [exact Hlen|].
  split; [exact Hax | exact (Hlt Hoff)].
Defined.

Lemma append_then_mags_at_pose_witness :
  records {[ 1%positive := [sweep 0 0; sweep 10 0] ]}
    (mkNetworkModel 1%positive) = Some [sweep 0 0; sweep 10 0]
  /\ truthy_float 10 = true
  /\ truthy_float 5 = true
  /\ same_pose (sweep 10 5) (sweep 10 5) = true
  /\ (forall x, x ∈ [sweep 0 0; sweep 10 0] ->
                same_pose x (sweep 10 5) = false)
  /\ mags sample_log10 sample_abs exact_bin None (Some 10) (Some 5)
       [sweep 0 0; sweep 10 0; sweep 10 5]
     = Ok (column [20; 0]).
Proof.
  assert (H : records {[ 1%positive := [sweep 0 0; sweep 10 0] ]}
                (mkNetworkModel 1%positive) = Some [sweep 0 0; sweep 10 0])
    by reflexivity.
  assert (Hfresh : forall x, x ∈ [sweep 0 0; sweep 10 0] ->
                             same_pose x (sweep 10 5) = false).
  { intros x Hx.
    repeat (apply elem_of_cons in Hx as [-> | Hx]; [reflexivity|]).
    now apply elem_of_nil in Hx. }
  split; [exact H|]. repeat (split; [reflexivity|]).
  split; [exact Hfresh|].
  destruct (append_then_mags_at_pose sample_log10 sample_abs exact_bin
              _ _ (sweep 10 5) _ H eq_refl eq_refl eq_refl Hfresh)
    as (new & σ' & _ & _ & Hmags).
  exact Hmags.
Defined.

Lemma append_keeps_first_match_witness :
  records {[ 1%positive := [sweep 10 5] ]} (mkNetworkModel 1%positive)
  = Some [sweep 10 5]
  /\ List.filter (admitted (Some 10) (Some 5)) [sweep 10 5] <> []
  /\ mags sample_log10 sample_abs exact_bin None (Some 10) (Some 5)
       [sweep 10 5; mkNetwork [1e9; 2e9] [(100, 0); (10, 0)] 10 5]
     = Ok (column [20; 0]).
Proof.
  assert (H : records {[ 1%positive := [sweep 10 5] ]}
                (mkNetworkModel 1%positive) = Some [sweep 10 5])
    by reflexivity.
  assert (Hsome : List.filter (admitted (Some 10) (Some 5)) [sweep 10 5]
                  <> []) by discriminate.
  split; [exact H|]. split; [exact Hsome|].
  destruct (append_keeps_first_match sample_log10 sample_abs exact_bin
              _ _ (mkNetwork [1e9; 2e9] [(100, 0); (10, 0)] 10 5) _
              (Some 10) (Some 5) H Hsome)
    as (new & σ' & _ & _ & Hmags).
  exact (eq_trans Hmags eq_refl).
Defined.

Lemma append_extends_frequency_rows_witness :
  records {[ 1%positive := [sweep 10 0] ]} (mkNetworkModel 1%positive)
  = Some [sweep 10 0]
  /\ truthy_str "1ghz" = true
  /\ mags sample_log10 sample_abs exact_bin (Some "1ghz"%string) None None
       [sweep 10 0] = Ok (Array [one_port [20]])
  /\ mags sample_log10 sample_abs exact_bin (Some "1ghz"%string) None None
       [sweep 10 0; sweep 0 10]
     = Ok (Array [one_port [20]; one_port [20]]).
Proof.
  assert (H : records {[ 1%positive := [sweep 10 0] ]}
                (mkNetworkModel 1%positive) = Some [sweep 10 0])
    by reflexivity.
  assert (Hrows : mags sample_log10 sample_abs exact_bin
                    (Some "1ghz"%string) None None [sweep 10 0]
                  = Ok (Array [one_port [20]])) by reflexivity.
  split; [exact H|]. split; [reflexivity|]. split; [exact Hrows|].
  destruct (append_extends_frequency_rows sample_log10 sample_abs exact_bin
              _ _ (sweep 0 10) _ "1ghz" None None _ H eq_refl Hrows)
    as (new & σ' & _ & _ & Hmags).
  exact Hmags.
Defined.

(** ** [append] and the axis queries *)

(** X10: appending a record adds at most one row to each angular axis,
    at its end: [azimuths] gains the record's azimuth exactly when its
    elevation equals 0, and [elevations] gains its elevation exactly when
    its azimuth equals 0; the rows already there are kept in order. *)
Theorem append_axes
    (σ : gmap loc (list Network)) (self : NetworkModel) (ntwk : Network)
    (xs : list Network) :
  records σ self = Some xs ->
  exists (new : NetworkModel) (σ' : gmap loc (list Network)),
    append self ntwk σ = Ok (new, σ')
    /\ records σ' new = Some (xs ++ [ntwk])
    /\ azimuths (xs ++ [ntwk])
       = column (ravel (azimuths xs)
                 ++ if param_elevation ntwk =? 0
                    then [param_azimuth ntwk] else [])
    /\ elevations (xs ++ [ntwk])
       = column (ravel (elevations xs)
                 ++ if param_azimuth ntwk =? 0
                    then [param_elevation ntwk] else []).
Proof.
  intros Hself.
  destruct (append_records σ self ntwk xs Hself)
    as (new & σ' & Hrun & Hnew & _).
  exists new, σ'. split; [exact Hrun|]. split; [exact Hnew|].
  rewrite !azimuths_column, !elevations_column, !ravel_column.
  rewrite !List.filter_app, !map_app. cbn [List.filter].
  split.
  - destruct (param_elevation ntwk =? 0); reflexivity.
  - destruct (param_azimuth ntwk =? 0); reflexivity.
Qed.

Lemma append_axes_witness :
  records {[ 1%positive := [sweep 0 0; sweep 10 0] ]}
    (mkNetworkModel 1%positive) = Some [sweep 0 0; sweep 10 0]
  /\ azimuths [sweep 0 0; sweep 10 0; sweep 0 10] = column [0; 10]
  /\ elevations [sweep 0 0; sweep 10 0; sweep 0 10] = column [0; 10].
Proof.
  assert (H : records {[ 1%positive := [sweep 0 0; sweep 10 0] ]}
                (mkNetworkModel 1%positive) = Some [sweep 0 0; sweep 10 0])
    by reflexivity.
  split; [exact H|].
  destruct (append_axes _ _ (sweep 0 10) _ H)
    as (? & ? & _ & _ & Haz & Hel).
  split; [exact Haz | exact Hel].
Defined.

(** ** Chains and branches of [append] *)

(** X11: appends chain: appending to the collection a first append
    returned gives the receiver's records followed by the two new ones in
    the order appended, while the receiver and the intermediate
    collection keep what they held; the three are distinct list
    objects. *)
Theorem append_chain
    (σ : gmap loc (list Network)) (self : NetworkModel)
    (first second : Network) (xs : list Network) :
  records σ self = Some xs ->
  exists (c1 c2 : NetworkModel) (σ' : gmap loc (list Network)),
    (c1 ← append self first; c2 ← append c1 second; mret (c1, c2)) σ
    = Ok ((c1, c2), σ')
    /\ records σ' c2 = Some (xs ++ [first; second])
    /\ records σ' c1 = Some (xs ++ [first])
    /\ records σ' self = Some xs
    /\ ntwk_set c1 <> ntwk_set self
    /\ ntwk_set c2 <> ntwk_set self
    /\ ntwk_set c2 <> ntwk_set c1.
Proof.
  intros Hself.
  destruct (append_records σ self first xs Hself)
    as (c1 & σ1 & Hrun1 & Hc1 & Hnew1 & Hframe1).
  destruct (append_records σ1 c1 second _ Hc1)
    as (c2 & σ2 & Hrun2 & Hc2 & Hnew2 & Hframe2).
  exists c1, c2, σ2.
  split.
  { unfold mbind, M_bind, mret, M_ret. now rewrite Hrun1, Hrun2. }
  split; [now rewrite <- app_assoc in Hc2|].
  split; [now apply Hframe2|].
  split; [now apply Hframe2, Hframe1|].
  unfold records in *.
  repeat split; intros Heq.
  - rewrite Heq in Hnew1. congruence.
  - rewrite Heq in Hnew2. rewrite (Hframe1 self xs Hself) in Hnew2.
    discriminate.
  - rewrite Heq in Hnew2. congruence.
Qed.

Lemma append_chain_witness :
  records {[ 1%positive := [sweep 0 0] ]} (mkNetworkModel 1%positive)
  = Some [sweep 0 0]
  /\ exists c1 c2 σ',
       (c1 ← append (mkNetworkModel 1%positive) (sweep 10 0);
        c2 ← append c1 (sweep 0 10);
        mret (c1, c2)) {[ 1%positive := [sweep 0 0] ]}
       = Ok ((c1, c2), σ')
       /\ records σ' c2 = Some [sweep 0 0; sweep 10 0; sweep 0 10]
       /\ records σ' c1 = Some [sweep 0 0; sweep 10 0]
       /\ records σ' (mkNetworkModel 1%positive) = Some [sweep 0 0].
Proof.
  assert (H : records {[ 1%positive := [sweep 0 0] ]}
                (mkNetworkModel 1%positive) = Some [sweep 0 0])
    by reflexivity.
  split; [exact H|].
  destruct (append_chain _ _ (sweep 10 0) (sweep 0 10) _ H)
    as (c1 & c2 & σ' & Hrun & Hc2 & Hc1 & Hself & _).
  exists c1, c2, σ'. repeat split; assumption.
Defined.

(** X12: appends branch: two appends to the same receiver give two
    collections, each the receiver's records followed by its own new
    record; neither sees the other's record and the receiver sees
    neither. *)
Theorem append_branch
    (σ : gmap loc (list Network)) (self : NetworkModel)
    (left right : Network) (xs : list Network) :
  records σ self = Some xs ->
  exists (c1 c2 : NetworkModel) (σ' : gmap loc (list Network)),
    (c1 ← append self left; c2 ← append self right; mret (c1, c2)) σ
    = Ok ((c1, c2), σ')
    /\ records σ' c1 = Some (xs ++ [left])
    /\ records σ' c2 = Some (xs ++ [right])
    /\ records σ' self = Some xs
    /\ ntwk_set c1 <> ntwk_set c2.
Proof.
  intros Hself.
  destruct (append_records σ self left xs Hself)
    as (c1 & σ1 & Hrun1 & Hc1 & Hnew1 & Hframe1).
  destruct (append_records σ1 self right xs (Hframe1 _ _ Hself))
    as (c2 & σ2 & Hrun2 & Hc2 & Hnew2 & Hframe2).
  exists c1, c2, σ2.
  split.
  { unfold mbind, M_bind, mret, M_ret. now rewrite Hrun1, Hrun2. }
  split; [now apply Hframe2|]. split; [exact Hc2|].
  split; [now apply Hframe2, Hframe1|].
  unfold records in *. intros Heq. rewrite <- Heq in Hnew2. congruence.
Qed.

Lemma append_branch_witness :
  records {[ 1%positive := [sweep 0 0] ]} (mkNetworkModel 1%positive)
  = Some [sweep 0 0]
  /\ exists c1 c2 σ',
       (c1 ← append (mkNetworkModel 1%positive) (sweep 10 0);
        c2 ← append (mkNetworkModel 1%positive) (sweep 0 10);
        mret (c1, c2)) {[ 1%positive := [sweep 0 0] ]}
       = Ok ((c1, c2), σ')
       /\ records σ' c1 = Some [sweep 0 0; sweep 10 0]
       /\ records σ' c2 = Some [sweep 0 0; sweep 0 10]
       /\ records σ' (mkNetworkModel 1%positive) = Some [sweep 0 0].
Proof.
  assert (H : records {[ 1%positive := [sweep 0 0] ]}
                (mkNetworkModel 1%positive) = Some [sweep 0 0])
    by reflexivity.
  split; [exact H|].
  destruct (append_branch _ _ (sweep 10 0) (sweep 0 10) _ H)
    as (c1 & c2 & σ' & Hrun & Hc1 & Hc2 & Hself & _).
  exists c1, c2, σ'. repeat split; assumption.
Defined.
